(** * MUSIC_BOT: the playback commands of [music_bot.py]

    A shallow embedding of the voice commands ([join], [leave], [play],
    [pause], [resume]) and of the audio resolver ([YTDLSource.from_url]).

    - The values the extraction backend hands back are Python values
      ([pyval]): dictionaries are [gmap string pyval].
    - A command is a function of the invocation context [Ctx]; it yields
      the context it leaves behind, the calls it made on the outside world
      (messages sent, transport calls) and whether it returned or raised
      ([Cmd], a state / writer / exception monad).
    - The two libraries the bot talks to are parameters or small models:
      the extractor [ytdl] and the outcome of [channel.connect()] are
      parameters of the commands; [discord.VoiceClient] is modelled as far
      as the commands observe it (connected channel, current player, paused
      flag). Sending a message, moving and disconnecting do not fail.
    - The event loop: code between two [await]s runs without interruption.
      The commands are taken as atomic except for the one long await of
      [play], the resolution [YTDLSource.from_url]; [Guild] and [step] run
      commands of one guild with that suspension point made explicit. The
      short awaits ([ctx.send], [channel.connect()], [move_to],
      [disconnect()]) are not suspension points here: what the voice
      client is while the library connects or disconnects is internal to
      it. A schedule of [step] therefore speaks of commands and answers
      that arrive once the command before them has finished. *)

From Stdlib Require Import QArith.
From stdpp Require Import base strings gmap list.

Open Scope string_scope.

(** ** Python values and exceptions *)

#[warnings="-register-all"]
Inductive pyval :=
| PyNone
| PyInt (z : Z)
| PyStr (s : string)
| PyList (l : list pyval)
| PyDict (d : gmap string pyval).

(** Every exception below is a subclass of Python's [Exception]. *)
Inductive exn :=
| TypeError
| IndexError
| KeyError (key : pyval)
| AttributeError (attr : string)
| ClientException (msg : string)
| LibraryError (cls msg : string).

Inductive outcome (A : Type) :=
| Returned (a : A)
| Raised (e : exn).
Arguments Returned {A} a.
Arguments Raised {A} e.

Definition obind {A B} (m : outcome A) (k : A -> outcome B) : outcome B :=
  match m with
  | Returned a => k a
  | Raised e => Raised e
  end.

Notation "'try!' x ':=' m 'in' k" := (obind m (fun x => k))
  (at level 10, x name, m at level 100, k at level 200).

(** [v[0]] *)
Definition py_index0 (v : pyval) : outcome pyval :=
  match v with
  | PyList (x :: _) => Returned x
  | PyList [] => Raised IndexError
  | PyStr (String c _) => Returned (PyStr (String c EmptyString))
  | PyStr EmptyString => Raised IndexError
  | PyDict _ => Raised (KeyError (PyInt 0))
  | PyNone | PyInt _ => Raised TypeError
  end.

(** [v[k]] for a string key [k] *)
Definition py_getitem (v : pyval) (k : string) : outcome pyval :=
  match v with
  | PyDict d =>
      match d !! k with
      | Some x => Returned x
      | None => Raised (KeyError (PyStr k))
      end
  | _ => Raised TypeError
  end.

(** [v.get(k)] *)
Definition py_get (v : pyval) (k : string) : outcome pyval :=
  match v with
  | PyDict d => Returned (default PyNone (d !! k))
  | _ => Raised (AttributeError "get")
  end.

(** [k in data], for what [extract_info] returns: an info dict or [None] *)
Definition py_contains (k : string) (data : option (gmap string pyval)) : outcome bool :=
  match data with
  | Some d => Returned (bool_decide (is_Some (d !! k)))
  | None => Raised TypeError
  end.

Definition py_of_info (data : option (gmap string pyval)) : pyval :=
  match data with
  | Some d => PyDict d
  | None => PyNone
  end.

(** ** Configuration *)

Definition COMMAND_PREFIX : string := "/".

Record FFMPEG_OPTIONS_t := { before_options : string; options : string }.

Definition FFMPEG_OPTIONS : FFMPEG_OPTIONS_t :=
  {| before_options := "-reconnect 1 -reconnect_streamed 1 -reconnect_delay_max 5";
     options := "-vn" |}.

(** The extraction backend, [ytdl = yt_dlp.YoutubeDL(YTDL_OPTIONS)]:
    [extract_info url download] and [prepare_filename data]. *)
Record YoutubeDL := {
  extract_info : string -> bool -> outcome (option (gmap string pyval));
  prepare_filename : pyval -> pyval
}.

(** ** The audio source *)

(** [discord.FFmpegPCMAudio(filename, **FFMPEG_OPTIONS)]: the process is
    spawned with [filename] on its command line, which has to be a string;
    the ffmpeg executable is taken to be installed. *)
Record FFmpegPCMAudio_t := {
  ff_source : string;
  ff_options : FFMPEG_OPTIONS_t
}.

Definition FFmpegPCMAudio (filename : pyval) (opts : FFMPEG_OPTIONS_t) : outcome FFmpegPCMAudio_t :=
  match filename with
  | PyStr s => Returned {| ff_source := s; ff_options := opts |}
  | _ => Raised TypeError
  end.

Record YTDLSource := {
  original : FFmpegPCMAudio_t;
  volume : Q;
  data : pyval;
  title : pyval;
  url : pyval;
  uploader : pyval
}.

(** [YTDLSource.__init__(self, source, *, data, volume=0.5)] *)
Definition YTDLSource_init (source : FFmpegPCMAudio_t) (data : pyval) : outcome YTDLSource :=
  try! t := py_get data "title" in
  try! u := py_get data "url" in
  try! up := py_get data "uploader" in
  Returned {| original := source; volume := 1 # 2; data := data;
              title := t; url := u; uploader := up |}.

(** [YTDLSource.from_url(url, *, loop=None, stream=True)]; the blocking
    [ytdl.extract_info] runs in an executor and is awaited. *)
Definition from_url (ytdl : YoutubeDL) (url : string) (stream : bool) : outcome YTDLSource :=
  try! data := extract_info ytdl url (negb stream) in
  try! has_entries := py_contains "entries" data in
  try! data :=
    (if has_entries : bool then
       try! entries := py_getitem (py_of_info data) "entries" in
       py_index0 entries
     else Returned (py_of_info data)) in
  try! filename :=
    (if stream then py_getitem data "url"
     else Returned (prepare_filename ytdl data)) in
  try! source := FFmpegPCMAudio filename FFMPEG_OPTIONS in
  YTDLSource_init source data.


(** ** The voice transport, as the commands observe it

    [discord.VoiceClient]: the channel it is connected to and its current
    audio player. [is_playing()] holds when there is a player that is not
    paused, [is_paused()] when there is a player that is paused. *)

Record VoiceChannel := { channel_id : N; channel_name : string }.

Record AudioPlayer := { source : YTDLSource; resumed : bool }.

Record VoiceClient := { channel : VoiceChannel; player : option AudioPlayer }.

Definition is_playing (vc : VoiceClient) : bool :=
  match player vc with
  | Some p => resumed p
  | None => false
  end.

Definition is_paused (vc : VoiceClient) : bool :=
  match player vc with
  | Some p => negb (resumed p)
  | None => false
  end.

(** ** Invocation context, effects *)

Record Member := { name : string; voice : option VoiceChannel }.

(** [ctx.voice_client] is looked up in the guild at every access: it is the
    one mutable cell the commands of a guild share. *)
Record Ctx := { author : Member; voice_client : option VoiceClient }.

(** An f-string: literal text and formatted values. *)
Inductive piece :=
| Lit (s : string)
| Fmt (v : pyval)
| FmtExn (e : exn).

Inductive event :=
| ESend (msg : list piece)      (* ctx.send(msg) *)
| EPrint (msg : list piece)     (* print(msg) *)
| ETyping                       (* ctx.typing() entered *)
| EConnect (c : VoiceChannel)   (* channel.connect() *)
| EMoveTo (c : VoiceChannel)    (* voice_client.move_to(channel) *)
| EStop                         (* voice_client.stop() *)
| EDisconnect                   (* voice_client.disconnect() *)
| EPlay (src : YTDLSource)      (* voice_client.play(player, ...) started a stream *)
| EPause                        (* voice_client.pause() *)
| EResume.                      (* voice_client.resume() *)

Record run (A : Type) := Run {
  final : Ctx;
  emitted : list event;
  result : outcome A
}.
Arguments Run {A} final emitted result.
Arguments final {A} r.
Arguments emitted {A} r.
Arguments result {A} r.

Definition Cmd (A : Type) : Type := Ctx -> run A.

Definition ret {A} (a : A) : Cmd A := fun ctx => Run ctx [] (Returned a).

Definition raise {A} (e : exn) : Cmd A := fun ctx => Run ctx [] (Raised e).

Definition bind {A B} (m : Cmd A) (k : A -> Cmd B) : Cmd B := fun ctx =>
  let r := m ctx in
  match result r with
  | Returned a =>
      let r' := k a (final r) in
      Run (final r') (emitted r ++ emitted r') (result r')
  | Raised e => Run (final r) (emitted r) (Raised e)
  end.

Notation "'let!' x ':=' m 'in' k" := (bind m (fun x => k))
  (at level 10, x name, m at level 100, k at level 200).
Notation "'do!' m 'in' k" := (bind m (fun _ => k))
  (at level 10, m at level 100, k at level 200).

(** [try: m  except Exception as e: h e] *)
Definition try_except {A} (m : Cmd A) (h : exn -> Cmd A) : Cmd A := fun ctx =>
  let r := m ctx in
  match result r with
  | Returned a => r
  | Raised e =>
      let r' := h e (final r) in
      Run (final r') (emitted r ++ emitted r') (result r')
  end.

Definition lift {A} (o : outcome A) : Cmd A := fun ctx => Run ctx [] o.

Definition emit (e : event) : Cmd unit := fun ctx => Run ctx [e] (Returned tt).

Definition get_ctx : Cmd Ctx := fun ctx => Run ctx [] (Returned ctx).

Definition set_voice_client (v : option VoiceClient) : Cmd unit := fun ctx =>
  Run {| author := author ctx; voice_client := v |} [] (Returned tt).

Definition send (msg : list piece) : Cmd unit := emit (ESend msg).

Definition print (msg : list piece) : Cmd unit := emit (EPrint msg).

Definition typing : Cmd unit := emit ETyping.

(** [ctx.voice_client.<attr>]: an attribute of [None] raises. *)
Definition vc_attr (attr : string) : Cmd VoiceClient :=
  let! ctx := get_ctx in
  match voice_client ctx with
  | Some vc => ret vc
  | None => raise (AttributeError attr)
  end.

Section Commands.

Variable ytdl : YoutubeDL.

(** What [channel.connect()] raises on that channel, if anything
    (timeout, missing permission). *)
Variable connect_error : VoiceChannel -> option exn.

(** *** Transport calls *)

(** [await channel.connect()] *)
Definition connect (c : VoiceChannel) : Cmd unit :=
  let! ctx := get_ctx in
  match voice_client ctx with
  | Some _ => raise (ClientException "Already connected to a voice channel.")
  | None =>
      match connect_error c with
      | Some e => raise e
      | None =>
          do! set_voice_client (Some {| channel := c; player := None |}) in
          emit (EConnect c)
      end
  end.

(** [await ctx.voice_client.move_to(channel)] *)
Definition move_to (c : VoiceChannel) : Cmd unit :=
  let! vc := vc_attr "move_to" in
  do! set_voice_client (Some {| channel := c; player := player vc |}) in
  emit (EMoveTo c).

(** [ctx.voice_client.stop()] *)
Definition stop : Cmd unit :=
  let! vc := vc_attr "stop" in
  do! set_voice_client (Some {| channel := channel vc; player := None |}) in
  emit EStop.

(** [await ctx.voice_client.disconnect()]: the client is removed from
    the guild, whatever it was playing goes with it. *)
Definition disconnect : Cmd unit :=
  let! vc := vc_attr "disconnect" in
  do! set_voice_client None in
  emit EDisconnect.

(** [ctx.voice_client.play(player, after=...)]: refuses while a stream
    is playing; otherwise installs the new player and starts it. *)
Definition vc_play (src : YTDLSource) : Cmd unit :=
  let! vc := vc_attr "play" in
  if is_playing vc then raise (ClientException "Already playing audio.")
  else
    do! set_voice_client
      (Some {| channel := channel vc;
               player := Some {| source := src; resumed := true |} |}) in
    emit (EPlay src).

(** [ctx.voice_client.pause()] *)
Definition vc_pause : Cmd unit :=
  let! vc := vc_attr "pause" in
  do! set_voice_client
    (Some {| channel := channel vc;
             player := (fun p => {| source := source p; resumed := false |}) <$> player vc |}) in
  emit EPause.

(** [ctx.voice_client.resume()] *)
Definition vc_resume : Cmd unit :=
  let! vc := vc_attr "resume" in
  do! set_voice_client
    (Some {| channel := channel vc;
             player := (fun p => {| source := source p; resumed := true |}) <$> player vc |}) in
  emit EResume.

(** *** Messages *)

Definition msg_not_in_voice (who : Member) : list piece :=
  [Lit (name who); Lit ", you are not connected to a voice channel."].

Definition msg_connected (c : VoiceChannel) : list piece :=
  [Lit "Connected to **"; Lit (channel_name c); Lit "**!"].

Definition msg_disconnected : list piece := [Lit "Disconnected."].

Definition msg_not_connected : list piece := [Lit "I'm not in a voice channel."].

Definition msg_need_voice : list piece :=
  [Lit "I need to be in a voice channel to play music. Use `!join` first."].

Definition msg_already_playing : list piece :=
  [Lit "I am currently playing/paused. Please use `/stop` before playing a new song."].

Definition msg_now_playing (p : YTDLSource) : list piece :=
  [Lit "🎶 Now playing: **"; Fmt (title p); Lit "** by *"; Fmt (uploader p); Lit "*"].

Definition msg_play_failed : list piece :=
  [Lit "Sorry, I could not find or play that song. Check your URL or search term."].

Definition msg_paused : list piece := [Lit "⏸️ Paused."].

Definition msg_not_playing : list piece := [Lit "I am not currently playing any audio."].

Definition msg_resumed : list piece := [Lit "▶️ Resumed."].

Definition msg_not_paused : list piece := [Lit "I am not paused."].

(** *** Core commands *)

(** [join(ctx)] *)
Definition join : Cmd unit :=
  let! ctx := get_ctx in
  match voice (author ctx) with
  | None => send (msg_not_in_voice (author ctx))
  | Some channel =>
      match voice_client ctx with
      | Some _ => move_to channel
      | None =>
          do! connect channel in
          send (msg_connected channel)
      end
  end.

(** [leave(ctx)] *)
Definition leave : Cmd unit :=
  let! ctx := get_ctx in
  match voice_client ctx with
  | Some vc =>
      do! (if is_playing vc then stop else ret tt) in
      do! disconnect in
      send msg_disconnected
  | None => send msg_not_connected
  end.

(** [play(ctx, query)], step 1: ensure the bot is connected. Returns
    [false] when the command has returned from the [except] branch. *)
Definition play_ensure_connected : Cmd bool :=
  let! ctx := get_ctx in
  match voice_client ctx with
  | None =>
      try_except
        (do! join in ret true)
        (fun _ => do! send msg_need_voice in ret false)
  | Some _ => ret true
  end.

(** [play], step 2: [ctx.voice_client.is_playing() or
    ctx.voice_client.is_paused()]. Returns [false] when the command has
    returned after the already-playing message. *)
Definition play_check_playback : Cmd bool :=
  let! vc := vc_attr "is_playing" in
  let! busy :=
    (if is_playing vc then ret true
     else let! vc := vc_attr "is_paused" in ret (is_paused vc)) in
  if busy : bool then do! send msg_already_playing in ret false
  else ret true.

(** [play], the [except Exception as e] branch. *)
Definition play_except (e : exn) : Cmd unit :=
  do! print [Lit "Error during play command: "; FmtExn e] in
  send msg_play_failed.

(** [play], steps 3 and 4 after [player] is there. *)
Definition play_start (player : YTDLSource) : Cmd unit :=
  do! vc_play player in
  send (msg_now_playing player).

(** [play(ctx, query)] *)
Definition play (query : string) : Cmd unit :=
  let! connected := play_ensure_connected in
  if connected : bool then
    let! idle := play_check_playback in
    if idle : bool then
      try_except
        (do! typing in
         let! player := lift (from_url ytdl query true) in
         play_start player)
        play_except
    else ret tt
  else ret tt.

(** [pause(ctx)] *)
Definition pause : Cmd unit :=
  let! ctx := get_ctx in
  match voice_client ctx with
  | Some vc =>
      if is_playing vc then
        do! vc_pause in
        send msg_paused
      else send msg_not_playing
  | None => send msg_not_playing
  end.

(** [resume(ctx)] *)
Definition resume : Cmd unit :=
  let! ctx := get_ctx in
  match voice_client ctx with
  | Some vc =>
      if is_paused vc then
        do! vc_resume in
        send msg_resumed
      else send msg_not_paused
  | None => send msg_not_paused
  end.

(** *** [play] around its suspension point

    [play] awaits the resolver inside [ctx.typing()]; other commands of
    the guild run meanwhile. [play_until_resolve] is the command up to
    that await ([true]: the resolution has been started),
    [play_after_resolve] is the rest, run when the resolver has
    answered with [r]. *)

Definition play_until_resolve : Cmd bool :=
  let! connected := play_ensure_connected in
  if connected : bool then
    let! idle := play_check_playback in
    if idle : bool then do! typing in ret true
    else ret false
  else ret false.

Definition play_after_resolve (r : outcome YTDLSource) : Cmd unit :=
  try_except
    (let! player := lift r in
     play_start player)
    play_except.

End Commands.

(** ** One guild, commands interleaved at the resolver

    The guild holds the voice client and the [play] invocations that are
    suspended on the resolver, each with its author and query. *)

Record Guild := {
  g_voice_client : option VoiceClient;
  resolving : list (Member * string)
}.

Inductive command :=
| CJoin
| CLeave
| CPlay (query : string)
| CPause
| CResume.

Inductive action :=
| Invoke (who : Member) (c : command)   (* a user issues a command *)
| Resolved (i : nat)                      (* the resolver answers the i-th suspended play *)
| StreamEnd (err : option exn).           (* the stream ends by itself, or on an error *)

(** The session states of the specification, read off the guild. *)
Inductive State := Idle | Resolving | Playing | Paused.

Definition session_state (g : Guild) : option State :=
  match g_voice_client g with
  | None => None
  | Some vc =>
      if is_playing vc then Some Playing
      else if is_paused vc then Some Paused
      else match resolving g with
           | [] => Some Idle
           | _ :: _ => Some Resolving
           end
  end.

Record stepped := Stepped {
  s_guild : Guild;
  s_emitted : list event;
  s_result : outcome unit
}.

Section Interleaving.

Variable ytdl : YoutubeDL.
Variable connect_error : VoiceChannel -> option exn.

Definition ctx_of (g : Guild) (who : Member) : Ctx :=
  {| author := who; voice_client := g_voice_client g |}.

(** Runs a command that does not suspend. *)
Definition run_atomic (g : Guild) (who : Member) (m : Cmd unit) : stepped :=
  let r := m (ctx_of g who) in
  Stepped {| g_voice_client := voice_client (final r); resolving := resolving g |}
          (emitted r) (result r).

Definition step (a : action) (g : Guild) : stepped :=
  match a with
  | Invoke who CJoin => run_atomic g who (join connect_error)
  | Invoke who CLeave => run_atomic g who leave
  | Invoke who CPause => run_atomic g who pause
  | Invoke who CResume => run_atomic g who resume
  | Invoke who (CPlay query) =>
      let r := play_until_resolve connect_error (ctx_of g who) in
      match result r with
      | Returned true =>
          Stepped {| g_voice_client := voice_client (final r);
                     resolving := resolving g ++ [(who, query)] |}
                  (emitted r) (Returned tt)
      | Returned false =>
          Stepped {| g_voice_client := voice_client (final r); resolving := resolving g |}
                  (emitted r) (Returned tt)
      | Raised e =>
          Stepped {| g_voice_client := voice_client (final r); resolving := resolving g |}
                  (emitted r) (Raised e)
      end
  | Resolved i =>
      match resolving g !! i with
      | Some (who, query) =>
          let r := play_after_resolve (from_url ytdl query true) (ctx_of g who) in
          Stepped {| g_voice_client := voice_client (final r);
                     resolving := delete i (resolving g) |}
                  (emitted r) (result r)
      | None => Stepped g [] (Returned tt)
      end
  | StreamEnd err =>
      (* the player is done; [after=lambda e: print(f'Player error: {e}') if e else None] *)
      match g_voice_client g with
      | Some {| channel := c; player := Some _ |} =>
          Stepped {| g_voice_client := Some {| channel := c; player := None |};
                     resolving := resolving g |}
                  (match err with
                   | Some e => [EPrint [Lit "Player error: "; FmtExn e]]
                   | None => []
                   end)
                  (Returned tt)
      | _ => Stepped g [] (Returned tt)
      end
  end.

(** Runs a schedule; the events of all steps, in order. *)
Fixpoint steps (acts : list action) (g : Guild) : Guild * list event :=
  match acts with
  | [] => (g, [])
  | a :: acts =>
      let s := step a g in
      let '(g', evs) := steps acts (s_guild s) in
      (g', (s_emitted s ++ evs)%list)
  end.

End Interleaving.

(** ** Sample data and auxiliary definitions *)

(** Sample backends. *)
Definition ytdl_const (r : outcome (option (gmap string pyval))) : YoutubeDL :=
  {| extract_info := fun _ _ => r; prepare_filename := fun _ => PyNone |}.

Definition sample_entry (t u : string) : pyval :=
  PyDict {[ "title" := PyStr t; "url" := PyStr u; "uploader" := PyStr "someone" ]}.

Definition ytdl_search : YoutubeDL :=
  ytdl_const (Returned (Some
    {[ "entries" := PyList [sample_entry "first" "http://cdn/1";
                            sample_entry "second" "http://cdn/2"] ]})).

Definition ytdl_untitled : YoutubeDL :=
  ytdl_const (Returned (Some {[ "url" := PyStr "http://cdn/3" ]})).

Definition ytdl_no_entries : YoutubeDL :=
  ytdl_const (Returned (Some {[ "entries" := PyList [] ]})).

Definition ytdl_down : YoutubeDL :=
  ytdl_const (Raised (LibraryError "DownloadError" "Video unavailable")).

(** What [from_url] makes of the entry it has selected. *)
Definition source_of_entry (entry : pyval) : outcome YTDLSource :=
  try! filename := py_getitem entry "url" in
  try! source := FFmpegPCMAudio filename FFMPEG_OPTIONS in
  YTDLSource_init source entry.

Definition with_voice_client (ctx : Ctx) (v : option VoiceClient) : Ctx :=
  {| author := author ctx; voice_client := v |}.

Definition no_connect_error : VoiceChannel -> option exn := fun _ => None.

Definition lobby : VoiceChannel := {| channel_id := 1; channel_name := "Lobby" |}.
Definition lounge : VoiceChannel := {| channel_id := 2; channel_name := "Lounge" |}.
Definition alice : Member := {| name := "alice"; voice := Some lobby |}.
Definition bob : Member := {| name := "bob"; voice := None |}.

(** Unfolds the monad on a context whose shape is known. *)
Ltac run_cmd :=
  cbv [bind ret raise lift emit send print typing get_ctx set_voice_client
       vc_attr try_except final emitted result with_voice_client
       author voice_client voice app].

Definition streaming (src : YTDLSource) (c : VoiceChannel) (on : bool) : VoiceClient :=
  {| channel := c; player := Some {| source := src; resumed := on |} |}.

Definition sample_source : YTDLSource :=
  {| original := {| ff_source := "http://cdn/1"; ff_options := FFMPEG_OPTIONS |};
     volume := 1 # 2; data := sample_entry "first" "http://cdn/1";
     title := PyStr "first"; url := PyStr "http://cdn/1";
     uploader := PyStr "someone" |}.

(** A guild connected to the lobby, nothing playing, one [play] of alice
    suspended on the resolver: state Resolving. *)
Definition guild_resolving : Guild :=
  {| g_voice_client := Some {| channel := lobby; player := None |};
     resolving := [(alice, "first")] |}.


Definition starts_stream (e : event) : bool :=
  match e with
  | EPlay _ => true
  | _ => false
  end.

(** ** Running the bot *)

Definition nl : string := String (Ascii.ascii_of_nat 10) EmptyString.

(** [isinstance(e, discord.LoginFailure)] *)
Definition is_LoginFailure (e : exn) : bool :=
  match e with
  | LibraryError cls _ => bool_decide (cls = "LoginFailure")
  | _ => false
  end.

(** What the main block did: the lines it printed, the token [bot.run] was
    called with, and how the block ended. *)
Record main_run := MainRun {
  printed : list (list piece);
  started : option string;
  ended : outcome unit
}.

(** The [if __name__ == '__main__':] block; [TOKEN] is
    [os.getenv("DISCORD_TOKEN")], [bot_run] is [bot.run]. *)
Definition main (TOKEN : option string) (bot_run : string -> outcome unit) : main_run :=
  match TOKEN with
  | None =>
      MainRun
        [[Lit nl;
          Lit "!!! ERROR: DISCORD_TOKEN environment variable not found. Check your .env file or environment settings. !!!";
          Lit nl]]
        None (Returned tt)
  | Some token =>
      match bot_run token with
      | Returned _ => MainRun [] (Some token) (Returned tt)
      | Raised e =>
          if is_LoginFailure e then
            MainRun
              [[Lit nl;
                Lit "!!! ERROR: Invalid token provided. Please check your DISCORD_TOKEN environment variable. !!!";
                Lit nl]]
              (Some token) (Returned tt)
          else
            MainRun
              [[Lit nl; Lit "!!! An unexpected error occurred: "; FmtExn e; Lit " !!!"; Lit nl]]
              (Some token) (Returned tt)
      end
  end.

(** ** Observations used in the further properties *)

(** The channel the bot is connected to, and the source of its player. *)
Definition connected_channel (ctx : Ctx) : option VoiceChannel :=
  channel <$> voice_client ctx.

Definition current_source (ctx : Ctx) : option YTDLSource :=
  match voice_client ctx with
  | Some vc => source <$> player vc
  | None => None
  end.

Definition is_send (e : event) : bool :=
  match e with
  | ESend _ => true
  | _ => false
  end.

Definition is_resolved (a : action) : bool :=
  match a with
  | Resolved _ => true
  | _ => false
  end.

(** A backend that has downloaded the file it names. *)
Definition ytdl_file : YoutubeDL :=
  {| extract_info := fun _ _ => Returned (Some {[ "title" := PyStr "saved" ]});
     prepare_filename := fun _ => PyStr "saved.webm" |}.

Definition ytdl_null_entry : YoutubeDL :=
  ytdl_const (Returned (Some {[ "entries" := PyList [PyNone] ]})).

(** * Properties *)

(** ** The resolver *)

Lemma from_url_entries ytdl query (d : gmap string pyval) entries :
  extract_info ytdl query false = Returned (Some d) ->
  d !! "entries" = Some entries ->
  from_url ytdl query true = (try! entry := py_index0 entries in source_of_entry entry).
Proof.
  intros Hx He. unfold from_url, source_of_entry. cbn [negb]. rewrite Hx.
  cbn [obind py_contains py_of_info py_getitem]. rewrite He.
  rewrite bool_decide_eq_true_2 by (eexists; reflexivity).
  cbn [obind]. destruct (py_index0 entries); reflexivity.
Qed.

Lemma from_url_single ytdl query (d : gmap string pyval) :
  extract_info ytdl query false = Returned (Some d) ->
  d !! "entries" = None ->
  from_url ytdl query true = source_of_entry (PyDict d).
Proof.
  intros Hx He. unfold from_url, source_of_entry. cbn [negb]. rewrite Hx.
  cbn [obind py_contains py_of_info]. rewrite He.
  rewrite bool_decide_eq_false_2 by (intros [? ?]; discriminate).
  reflexivity.
Qed.

Lemma source_of_entry_returned entry p :
  source_of_entry entry = Returned p ->
  exists (d0 : gmap string pyval) (u : string),
    entry = PyDict d0 /\ d0 !! "url" = Some (PyStr u) /\
    p = {| original := {| ff_source := u; ff_options := FFMPEG_OPTIONS |};
           volume := 1 # 2; data := PyDict d0;
           title := default PyNone (d0 !! "title");
           url := PyStr u;
           uploader := default PyNone (d0 !! "uploader") |}.
Proof.
  unfold source_of_entry. destruct entry as [| z | s | l | d0]; try discriminate.
  cbn [py_getitem]. destruct (d0 !! "url") as [v|] eqn:Hu; [|discriminate].
  cbn [obind]. destruct v as [| z | u | l | d1]; try discriminate.
  cbn [FFmpegPCMAudio obind YTDLSource_init py_get]. rewrite Hu. cbn [default].
  intros [= <-]. exists d0, u.
  split; [reflexivity|]. split; [exact Hu|]. reflexivity.
Qed.

(** C4: when the backend's result has entries, [from_url] resolves the
    first entry and nothing else: its result is that of the first entry
    alone, whatever follows it, and the source it returns carries the data,
    title, uploader and stream URL of entry 0. A first entry with a stream
    URL does give a source. *)
Theorem from_url_uses_first_entry ytdl query (d : gmap string pyval) e0 rest :
  extract_info ytdl query false = Returned (Some d) ->
  d !! "entries" = Some (PyList (e0 :: rest)) ->
  from_url ytdl query true = source_of_entry e0 /\
  (forall p, from_url ytdl query true = Returned p ->
     exists (d0 : gmap string pyval) (u : string),
       e0 = PyDict d0 /\ data p = e0 /\
       title p = default PyNone (d0 !! "title") /\
       uploader p = default PyNone (d0 !! "uploader") /\
       d0 !! "url" = Some (PyStr u) /\ url p = PyStr u /\
       ff_source (original p) = u) /\
  (forall (d0 : gmap string pyval) (u : string),
     e0 = PyDict d0 -> d0 !! "url" = Some (PyStr u) ->
     exists p, from_url ytdl query true = Returned p).
Proof.
  intros Hx He.
  assert (Hf : from_url ytdl query true = source_of_entry e0).
  { rewrite (from_url_entries _ _ _ _ Hx He). reflexivity. }
  split; [exact Hf|]. split.
  - intros p Hp. rewrite Hf in Hp.
    destruct (source_of_entry_returned _ _ Hp) as (d0 & u & -> & Hu & ->).
    exists d0, u. repeat split; try reflexivity. exact Hu.
  - intros d0 u -> Hu. rewrite Hf. unfold source_of_entry. cbn [py_getitem].
    rewrite Hu. cbn. eexists. reflexivity.
Qed.

Lemma from_url_uses_first_entry_witness :
  from_url ytdl_search "lofi" true = source_of_entry (sample_entry "first" "http://cdn/1") /\
  exists p, from_url ytdl_search "lofi" true = Returned p /\ title p = PyStr "first".
Proof.
  destruct (from_url_uses_first_entry ytdl_search "lofi"
              {[ "entries" := PyList [sample_entry "first" "http://cdn/1";
                                      sample_entry "second" "http://cdn/2"] ]}
              (sample_entry "first" "http://cdn/1")
              [sample_entry "second" "http://cdn/2"]
              eq_refl eq_refl) as (Hf & _ & _).
  split; [exact Hf|]. rewrite Hf. eexists. split; vm_compute; reflexivity.
Defined.

(** C8, as stated, fails: an entry with a stream URL and no title is not
    rejected; [from_url] returns a source whose title is [None]. *)
Lemma from_url_untitled_is_returned :
  exists p, from_url ytdl_untitled "untitled" true = Returned p /\
            title p = PyNone /\ url p = PyStr "http://cdn/3".
Proof. eexists. split; [vm_compute; reflexivity|]. split; reflexivity. Qed.

(** C8, amended: [from_url] fails (with [IndexError]) when the backend
    returns a result with zero entries, and fails (with [KeyError]) when
    the selected entry, the first entry or else the result itself, is a
    dictionary without a stream URL; a source it returns always has a
    stream URL, the one its audio is read from. The title is not required:
    where it is absent, the source is returned with title [None]. *)
Theorem from_url_failures ytdl query (d : gmap string pyval) :
  extract_info ytdl query false = Returned (Some d) ->
  (d !! "entries" = Some (PyList []) ->
     from_url ytdl query true = Raised IndexError) /\
  (forall (d0 : gmap string pyval) rest,
     d !! "entries" = Some (PyList (PyDict d0 :: rest)) -> d0 !! "url" = None ->
     from_url ytdl query true = Raised (KeyError (PyStr "url"))) /\
  (d !! "entries" = None -> d !! "url" = None ->
     from_url ytdl query true = Raised (KeyError (PyStr "url"))) /\
  (forall p, from_url ytdl query true = Returned p ->
     exists u, url p = PyStr u /\ ff_source (original p) = u) /\
  (forall u, d !! "entries" = None -> d !! "url" = Some (PyStr u) ->
     d !! "title" = None ->
     exists p, from_url ytdl query true = Returned p /\
               title p = PyNone /\ url p = PyStr u).
Proof.
  intros Hx. repeat split.
  - intros He. rewrite (from_url_entries _ _ _ _ Hx He). reflexivity.
  - intros d0 rest He Hu. rewrite (from_url_entries _ _ _ _ Hx He).
    cbn [py_index0 obind]. unfold source_of_entry. cbn [py_getitem].
    rewrite Hu. reflexivity.
  - intros He Hu. rewrite (from_url_single _ _ _ Hx He).
    unfold source_of_entry. cbn [py_getitem]. rewrite Hu. reflexivity.
  - intros p Hp. destruct (d !! "entries") as [entries|] eqn:He.
    + rewrite (from_url_entries _ _ _ _ Hx He) in Hp.
      destruct (py_index0 entries) as [entry|] eqn:Hi; [|discriminate].
      cbn [obind] in Hp.
      destruct (source_of_entry_returned _ _ Hp) as (d0 & u & _ & _ & ->).
      exists u. split; reflexivity.
    + rewrite (from_url_single _ _ _ Hx He) in Hp.
      destruct (source_of_entry_returned _ _ Hp) as (d0 & u & _ & _ & ->).
      exists u. split; reflexivity.
  - intros u He Hu Ht. rewrite (from_url_single _ _ _ Hx He).
    unfold source_of_entry. cbn [py_getitem]. rewrite Hu.
    cbn [obind FFmpegPCMAudio YTDLSource_init py_get]. rewrite Hu, Ht.
    eexists. split; [reflexivity|]. split; reflexivity.
Qed.

Lemma from_url_failures_witness :
  from_url ytdl_no_entries "nothing" true = Raised IndexError /\
  exists p, from_url ytdl_untitled "untitled" true = Returned p /\
            title p = PyNone /\ url p = PyStr "http://cdn/3".
Proof.
  split.
  - apply (from_url_failures ytdl_no_entries "nothing"
             {[ "entries" := PyList [] ]} eq_refl). reflexivity.
  - apply (from_url_failures ytdl_untitled "untitled"
             {[ "url" := PyStr "http://cdn/3" ]} eq_refl); reflexivity.
Defined.

(** ** The commands, one at a time *)

(** C5: [join] reports that the user is not connected to a voice channel
    when the author is in none; connects to the author's channel when the
    guild has no voice client (and the connection succeeds); and moves the
    existing voice client, keeping its player, to the author's channel
    when there is one. *)
Theorem join_cases connect_error (ctx : Ctx) :
  (voice (author ctx) = None ->
     join connect_error ctx
     = Run ctx [ESend (msg_not_in_voice (author ctx))] (Returned tt)) /\
  (forall c, voice (author ctx) = Some c -> voice_client ctx = None ->
     connect_error c = None ->
     join connect_error ctx
     = Run (with_voice_client ctx (Some {| channel := c; player := None |}))
           [EConnect c; ESend (msg_connected c)] (Returned tt)) /\
  (forall c vc, voice (author ctx) = Some c -> voice_client ctx = Some vc ->
     join connect_error ctx
     = Run (with_voice_client ctx (Some {| channel := c; player := player vc |}))
           [EMoveTo c] (Returned tt)).
Proof.
  destruct ctx as [[nm v] cl]. cbn [author voice voice_client].
  split; [|split].
  - intros ->. reflexivity.
  - intros c -> -> Hc. unfold join, connect. run_cmd. rewrite Hc. reflexivity.
  - intros c vc -> ->. reflexivity.
Qed.

(** C6: [leave] with a voice client stops the stream when one is playing,
    disconnects in every case, so that no voice client and no player is
    left, and reports it; [leave] without a voice client only reports that
    the bot is in no voice channel, returning normally and changing
    nothing. *)
Theorem leave_cases (ctx : Ctx) :
  (forall vc, voice_client ctx = Some vc ->
     leave ctx
     = Run (with_voice_client ctx None)
           ((if is_playing vc then [EStop] else []) ++
            [EDisconnect; ESend msg_disconnected])
           (Returned tt)) /\
  (voice_client ctx = None ->
     leave ctx = Run ctx [ESend msg_not_connected] (Returned tt)).
Proof.
  destruct ctx as [who cl]. cbn [voice_client]. split.
  - intros vc ->. unfold leave, stop, disconnect. run_cmd.
    destruct (is_playing vc); reflexivity.
  - intros ->. reflexivity.
Qed.

(** C2, what the code does: with no voice client and an author who is in
    no voice channel, [play] sends the not-connected message of [join],
    which returns normally, and then raises [AttributeError] on
    [ctx.voice_client.is_playing()], outside of any [try]: the command
    ends in an exception, not in a reported failure. Nothing is connected
    and the resolver is not called. *)
Theorem play_without_voice_raises ytdl connect_error query nm :
  let ctx := {| author := {| name := nm; voice := None |}; voice_client := None |} in
  play ytdl connect_error query ctx
  = Run ctx [ESend (msg_not_in_voice (author ctx))]
        (Raised (AttributeError "is_playing")).
Proof. reflexivity. Qed.

(** ** [play] and its resolution *)

(** [play] is its part before the resolver followed by its part after. *)
Lemma play_split ytdl connect_error query (ctx : Ctx) :
  play ytdl connect_error query ctx
  = bind (play_until_resolve connect_error)
         (fun started : bool =>
            if started then play_after_resolve (from_url ytdl query true)
            else ret tt) ctx.
Proof.
  destruct ctx as [[nm v] cl].
  unfold play, play_until_resolve, play_after_resolve, play_ensure_connected,
    play_check_playback, play_start, play_except, join, connect, move_to, vc_play.
  destruct cl as [[ch pl]|].
  - run_cmd. unfold is_playing, is_paused. cbn [player].
    destruct pl as [[src [|]]|]; cbn [resumed negb]; try reflexivity.
    destruct (from_url ytdl query true); reflexivity.
  - destruct v as [c|]; [|reflexivity].
    run_cmd. destruct (connect_error c); [reflexivity|].
    cbn. destruct (from_url ytdl query true); reflexivity.
Qed.

(** Past its checks, [play] has a voice client that neither plays nor is
    paused, and has only announced that it is typing. *)
Lemma play_until_resolve_started connect_error (ctx : Ctx) :
  result (play_until_resolve connect_error ctx) = Returned true ->
  exists vc,
    voice_client (final (play_until_resolve connect_error ctx)) = Some vc /\
    is_playing vc = false /\ is_paused vc = false /\
    author (final (play_until_resolve connect_error ctx)) = author ctx /\
    (forall vc0, voice_client ctx = Some vc0 ->
       final (play_until_resolve connect_error ctx) = ctx /\
       emitted (play_until_resolve connect_error ctx) = [ETyping]).
Proof.
  destruct ctx as [[nm v] cl].
  unfold play_until_resolve, play_ensure_connected, play_check_playback,
    join, connect, move_to.
  destruct cl as [[ch pl]|].
  - run_cmd. unfold is_playing, is_paused. cbn [player].
    destruct pl as [[src [|]]|]; cbn [resumed negb]; try discriminate.
    intros _. eexists. do 4 (split; [reflexivity|]).
    intros vc0 [= <-]. split; reflexivity.
  - destruct v as [c|]; [|discriminate].
    run_cmd. destruct (connect_error c); [discriminate|].
    cbn. intros _. eexists. do 4 (split; [reflexivity|]).
    intros vc0; discriminate.
Qed.

Lemma play_after_resolve_raised e (ctx : Ctx) :
  play_after_resolve (Raised e) ctx
  = Run ctx [EPrint [Lit "Error during play command: "; FmtExn e];
             ESend msg_play_failed] (Returned tt).
Proof. destruct ctx. reflexivity. Qed.

(** C3: when the resolver fails in a [play] that has passed its checks,
    the command returns normally after the one message that it could not
    find or play the song; the voice client is as the checks left it,
    neither playing nor paused, and a context that had a voice client
    before the request is unchanged. Whenever the failure arrives, the part
    of [play] that handles it leaves the context as it finds it. *)
Theorem play_resolution_failed ytdl connect_error query (ctx : Ctx) e :
  result (play_until_resolve connect_error ctx) = Returned true ->
  from_url ytdl query true = Raised e ->
  let before := play_until_resolve connect_error ctx in
  play ytdl connect_error query ctx
  = Run (final before)
        (emitted before ++
         [EPrint [Lit "Error during play command: "; FmtExn e];
          ESend msg_play_failed])
        (Returned tt) /\
  (exists vc, voice_client (final before) = Some vc /\
              is_playing vc = false /\ is_paused vc = false) /\
  (forall vc0, voice_client ctx = Some vc0 -> final before = ctx) /\
  (forall ctx' : Ctx,
     final (play_after_resolve (Raised e) ctx') = ctx' /\
     result (play_after_resolve (Raised e) ctx') = Returned tt).
Proof.
  intros Hstart Hres before. subst before. split; [|split; [|split]].
  - rewrite play_split. unfold bind. cbv zeta. rewrite Hstart.
    rewrite Hres, play_after_resolve_raised. reflexivity.
  - destruct (play_until_resolve_started _ _ Hstart) as (vc & Hvc & Hp & Hq & _).
    exists vc. auto.
  - intros vc0 H0.
    destruct (play_until_resolve_started _ _ Hstart) as (vc & _ & _ & _ & _ & Hsame).
    apply (Hsame vc0 H0).
  - intros ctx'. rewrite play_after_resolve_raised. split; reflexivity.
Qed.

Lemma play_resolution_failed_witness :
  play ytdl_down no_connect_error "gone"
       {| author := alice; voice_client := Some {| channel := lobby; player := None |} |}
  = Run {| author := alice; voice_client := Some {| channel := lobby; player := None |} |}
        [ETyping;
         EPrint [Lit "Error during play command: ";
                 FmtExn (LibraryError "DownloadError" "Video unavailable")];
         ESend msg_play_failed]
        (Returned tt).
Proof.
  apply (play_resolution_failed ytdl_down no_connect_error "gone"
           {| author := alice; voice_client := Some {| channel := lobby; player := None |} |}
           (LibraryError "DownloadError" "Video unavailable") eq_refl eq_refl).
Defined.

Lemma play_after_resolve_returns (r : outcome YTDLSource) (ctx : Ctx) :
  result (play_after_resolve r ctx) = Returned tt.
Proof.
  destruct ctx as [who [[ch [[src [|]]|]]|]], r as [p|e]; reflexivity.
Qed.

Lemma play_after_resolve_caught (r : outcome YTDLSource) (ctx : Ctx) e :
  r = Raised e \/ (exists p, r = Returned p /\ result (vc_play p ctx) = Raised e) ->
  play_after_resolve r ctx
  = Run ctx [EPrint [Lit "Error during play command: "; FmtExn e];
             ESend msg_play_failed] (Returned tt).
Proof.
  intros [-> | (p & -> & Hp)]; [apply play_after_resolve_raised|].
  destruct ctx as [who [[ch [[src [|]]|]]|]]; cbv in Hp; try discriminate;
    injection Hp as <-; reflexivity.
Qed.

(** C10: a [play] that has passed the connection and already-playing
    checks returns normally, whatever the resolver does; and in the part
    of [play] run once the resolver has answered, in whatever state the
    voice client is by then, an exception raised by the resolver or by
    [voice_client.play] is caught: the command prints it, sends the one
    failure message, leaves the context as it was and returns normally. *)
Theorem play_catches_exceptions ytdl connect_error query (ctx : Ctx) :
  result (play_until_resolve connect_error ctx) = Returned true ->
  result (play ytdl connect_error query ctx) = Returned tt /\
  (forall (r : outcome YTDLSource) (ctx' : Ctx),
     result (play_after_resolve r ctx') = Returned tt /\
     (forall e,
        r = Raised e \/
        (exists p, r = Returned p /\ result (vc_play p ctx') = Raised e) ->
        play_after_resolve r ctx'
        = Run ctx' [EPrint [Lit "Error during play command: "; FmtExn e];
                    ESend msg_play_failed] (Returned tt))).
Proof.
  intros Hstart. split.
  - rewrite play_split. unfold bind. cbv zeta. rewrite Hstart.
    cbn [result]. apply play_after_resolve_returns.
  - intros r ctx'. split.
    + apply play_after_resolve_returns.
    + intros e. apply play_after_resolve_caught.
Qed.

Lemma play_catches_exceptions_witness :
  result (play ytdl_no_entries no_connect_error "nothing"
            {| author := alice; voice_client := None |}) = Returned tt /\
  emitted (play ytdl_no_entries no_connect_error "nothing"
             {| author := alice; voice_client := None |})
  = [EConnect lobby; ESend (msg_connected lobby); ETyping;
     EPrint [Lit "Error during play command: "; FmtExn IndexError];
     ESend msg_play_failed].
Proof.
  split.
  - apply (play_catches_exceptions ytdl_no_entries no_connect_error "nothing"
             {| author := alice; voice_client := None |} eq_refl).
  - vm_compute. reflexivity.
Defined.

(** ** One guild: pause and resume *)

Lemma session_state_playing (g : Guild) :
  session_state g = Some Playing ->
  exists c src, g_voice_client g = Some (streaming src c true).
Proof.
  destruct g as [[[c [[src [|]]|]]|] rs]; cbv [session_state g_voice_client
    is_playing is_paused player resumed negb resolving]; try discriminate.
  - intros _. exists c, src. reflexivity.
  - destruct rs; discriminate.
Qed.

Lemma session_state_paused (g : Guild) :
  session_state g = Some Paused ->
  exists c src, g_voice_client g = Some (streaming src c false).
Proof.
  destruct g as [[[c [[src [|]]|]]|] rs]; cbv [session_state g_voice_client
    is_playing is_paused player resumed negb resolving]; try discriminate.
  - intros _. exists c, src. reflexivity.
  - destruct rs; discriminate.
Qed.

(** C7: [pause] succeeds exactly in state Playing, which it turns into
    Paused, and [resume] exactly in state Paused, which it turns into
    Playing; in every other state, also without a session, each only
    reports that nothing is playing, or paused, and changes nothing. So
    from Playing, [pause] then [resume] gives back the very same guild,
    and a second [resume] after it is refused. *)
Theorem pause_resume_cases ytdl connect_error (g : Guild) who :
  let do_pause := step ytdl connect_error (Invoke who CPause) in
  let do_resume := step ytdl connect_error (Invoke who CResume) in
  (session_state g = Some Playing ->
     s_emitted (do_pause g) = [EPause; ESend msg_paused] /\
     s_result (do_pause g) = Returned tt /\
     session_state (s_guild (do_pause g)) = Some Paused) /\
  (session_state g <> Some Playing ->
     do_pause g = Stepped g [ESend msg_not_playing] (Returned tt)) /\
  (session_state g = Some Paused ->
     s_emitted (do_resume g) = [EResume; ESend msg_resumed] /\
     s_result (do_resume g) = Returned tt /\
     session_state (s_guild (do_resume g)) = Some Playing) /\
  (session_state g <> Some Paused ->
     do_resume g = Stepped g [ESend msg_not_paused] (Returned tt)) /\
  (session_state g = Some Playing ->
     s_guild (do_resume (s_guild (do_pause g))) = g /\
     steps ytdl connect_error
       [Invoke who CPause; Invoke who CResume; Invoke who CResume] g
     = (g, [EPause; ESend msg_paused; EResume; ESend msg_resumed;
            ESend msg_not_paused])).
Proof.
  cbv zeta.
  assert (Hplaying : session_state g = Some Playing ->
            exists c src rs, g = {| g_voice_client := Some (streaming src c true);
                                    resolving := rs |}).
  { intros Hs. apply session_state_playing in Hs as (c & src & Hg).
    destruct g as [cl rs]. cbn in Hg. subst cl. exists c, src, rs. reflexivity. }
  assert (Hpaused : session_state g = Some Paused ->
            exists c src rs, g = {| g_voice_client := Some (streaming src c false);
                                    resolving := rs |}).
  { intros Hs. apply session_state_paused in Hs as (c & src & Hg).
    destruct g as [cl rs]. cbn in Hg. subst cl. exists c, src, rs. reflexivity. }
  split; [|split; [|split; [|split]]].
  - intros Hs. destruct (Hplaying Hs) as (c & src & rs & ->).
    repeat split; reflexivity.
  - intros Hn. destruct g as [[[c [[src [|]]|]]|] rs]; try reflexivity.
    exfalso. apply Hn. reflexivity.
  - intros Hs. destruct (Hpaused Hs) as (c & src & rs & ->).
    repeat split; reflexivity.
  - intros Hn. destruct g as [[[c [[src [|]]|]]|] rs]; try reflexivity.
    exfalso. apply Hn. reflexivity.
  - intros Hs. destruct (Hplaying Hs) as (c & src & rs & ->).
    split; reflexivity.
Qed.

(** ** One guild: [play] against playback and against a resolution in flight *)

(** C1, as stated, fails: in state Resolving a second [play] is not turned
    away. It passes the already-playing check, sends no already-playing
    message and starts a resolution of its own, next to the one in flight;
    when both have answered, the first one resolved plays and the other
    ends in the generic failure message, never in the already-playing
    one. *)
Lemma play_while_resolving_is_accepted :
  session_state guild_resolving = Some Resolving /\
  step ytdl_search no_connect_error (Invoke alice (CPlay "second")) guild_resolving
  = Stepped {| g_voice_client := Some {| channel := lobby; player := None |};
               resolving := [(alice, "first"); (alice, "second")] |}
            [ETyping] (Returned tt) /\
  snd (steps ytdl_search no_connect_error
         [Invoke alice (CPlay "second"); Resolved 1; Resolved 0] guild_resolving)
  = [ETyping;
     EPlay sample_source; ESend (msg_now_playing sample_source);
     EPrint [Lit "Error during play command: ";
             FmtExn (ClientException "Already playing audio.")];
     ESend msg_play_failed].
Proof. split; [reflexivity|]. split; vm_compute; reflexivity. Qed.

(** C1, amended: with a voice client, [play] is turned away with the
    already-playing message, starting no resolution and no stream and
    changing nothing, exactly when the voice client is playing or paused.
    When it is neither, in state Idle and in state Resolving alike, [play]
    passes the check and starts a resolution; from Idle, a resolution
    that succeeds starts the stream. *)
Theorem play_check_cases ytdl connect_error (g : Guild) who query :
  let do_play := step ytdl connect_error (Invoke who (CPlay query)) in
  (session_state g = Some Playing \/ session_state g = Some Paused ->
     do_play g = Stepped g [ESend msg_already_playing] (Returned tt)) /\
  (session_state g = Some Idle \/ session_state g = Some Resolving ->
     do_play g
     = Stepped {| g_voice_client := g_voice_client g;
                  resolving := resolving g ++ [(who, query)] |}
               [ETyping] (Returned tt)) /\
  (forall p, session_state g = Some Idle ->
     from_url ytdl query true = Returned p ->
     exists c,
       g_voice_client g = Some {| channel := c; player := None |} /\
       steps ytdl connect_error [Invoke who (CPlay query); Resolved 0] g
       = ({| g_voice_client := Some (streaming p c true); resolving := [] |},
          [ETyping; EPlay p; ESend (msg_now_playing p)])).
Proof.
  cbv zeta. split; [|split].
  - intros Hs. destruct g as [[[c [[src [|]]|]]|] rs];
      try reflexivity; destruct Hs as [Hs|Hs]; try discriminate;
      destruct rs; discriminate.
  - intros Hs. destruct g as [[[c [[src [|]]|]]|] rs];
      try reflexivity; destruct Hs as [Hs|Hs]; discriminate.
  - intros p Hs Hp. destruct g as [[[c [[src [|]]|]]|] rs]; try discriminate.
    destruct rs; [|discriminate]. exists c. split; [reflexivity|].
    cbn [steps step]. cbv [play_until_resolve play_ensure_connected
      play_check_playback ctx_of bind ret raise lift emit send print typing
      get_ctx set_voice_client vc_attr try_except final emitted result author
      voice_client g_voice_client resolving is_playing is_paused player
      resumed s_guild s_emitted app lookup list_lookup].
    rewrite Hp. reflexivity.
Qed.

(** ** One guild: [leave] during a resolution *)







(** ** Sample runs *)

Example join_moves_the_client :
  join no_connect_error
    {| author := {| name := "carol"; voice := Some lounge |};
       voice_client := Some (streaming sample_source lobby true) |}
  = Run {| author := {| name := "carol"; voice := Some lounge |};
           voice_client := Some (streaming sample_source lounge true) |}
        [EMoveTo lounge] (Returned tt).
Proof. reflexivity. Qed.

Example play_connect_refused :
  play ytdl_search (fun _ => Some (LibraryError "TimeoutError" "")) "lofi"
    {| author := alice; voice_client := None |}
  = Run {| author := alice; voice_client := None |}
        [ESend msg_need_voice] (Returned tt).
Proof. reflexivity. Qed.

Example leave_while_paused :
  leave {| author := bob; voice_client := Some (streaming sample_source lobby false) |}
  = Run {| author := bob; voice_client := None |}
        [EDisconnect; ESend msg_disconnected] (Returned tt).
Proof. reflexivity. Qed.

Example stream_error_is_printed :
  step ytdl_search no_connect_error (StreamEnd (Some (LibraryError "OSError" "pipe")))
    {| g_voice_client := Some (streaming sample_source lobby true); resolving := [] |}
  = Stepped {| g_voice_client := Some {| channel := lobby; player := None |}; resolving := [] |}
            [EPrint [Lit "Player error: "; FmtExn (LibraryError "OSError" "pipe")]]
            (Returned tt).
Proof. reflexivity. Qed.

(** * Further properties *)

(** ** The resolver, beyond the claims *)

Lemma YTDLSource_init_returned src dt p :
  YTDLSource_init src dt = Returned p ->
  exists d0 : gmap string pyval,
    dt = PyDict d0 /\
    p = {| original := src; volume := 1 # 2; data := PyDict d0;
           title := default PyNone (d0 !! "title");
           url := default PyNone (d0 !! "url");
           uploader := default PyNone (d0 !! "uploader") |}.
Proof.
  destruct dt as [| z | s | l | d0]; try discriminate.
  cbn. intros [= <-]. exists d0. split; reflexivity.
Qed.

Lemma from_url_returned ytdl query stream p :
  from_url ytdl query stream = Returned p ->
  exists filename dt,
    FFmpegPCMAudio filename FFMPEG_OPTIONS = Returned (original p) /\
    YTDLSource_init (original p) dt = Returned p.
Proof.
  unfold from_url.
  destruct (extract_info ytdl query (negb stream)) as [info|]; [|discriminate].
  cbn [obind]. destruct (py_contains "entries" info) as [has|]; [|discriminate].
  cbn [obind].
  destruct (if has then _ else _) as [dt|]; [|discriminate].
  cbn [obind].
  destruct (if stream then _ else _) as [filename|]; [|discriminate].
  cbn [obind].
  destruct (FFmpegPCMAudio filename FFMPEG_OPTIONS) as [src|] eqn:Hsrc; [|discriminate].
  cbn [obind]. intros Hp.
  destruct (YTDLSource_init_returned _ _ _ Hp) as (d0 & -> & ->).
  exists filename, (PyDict d0). split; [exact Hsrc | reflexivity].
Qed.

(** X1: a failure of the backend is the failure of [from_url]: the
    exception [extract_info] raises is raised unchanged, and a backend
    that returns [None] instead of a result makes [from_url] raise
    [TypeError]; in both cases no audio source is built. *)
Theorem from_url_backend_failure ytdl query stream :
  (forall e, extract_info ytdl query (negb stream) = Raised e ->
     from_url ytdl query stream = Raised e) /\
  (extract_info ytdl query (negb stream) = Returned None ->
     from_url ytdl query stream = Raised TypeError).
Proof.
  unfold from_url. split.
  - intros e ->. reflexivity.
  - intros ->. reflexivity.
Qed.

(** X2: a result whose ['entries'] is [None], or whose first entry is not
    a dictionary, makes [from_url] raise [TypeError], whatever else the
    result holds. *)
Theorem from_url_malformed_entries ytdl query (d : gmap string pyval) entries :
  extract_info ytdl query false = Returned (Some d) ->
  d !! "entries" = Some entries ->
  entries = PyNone \/
  (exists e0 rest, entries = PyList (e0 :: rest) /\
                   forall d0 : gmap string pyval, e0 <> PyDict d0) ->
  from_url ytdl query true = Raised TypeError.
Proof.
  intros Hx He Hbad. rewrite (from_url_entries _ _ _ _ Hx He).
  destruct Hbad as [-> | (e0 & rest & -> & Hnd)]; [reflexivity|].
  cbn [py_index0 obind]. unfold source_of_entry.
  destruct e0 as [| z | s | l | d0]; try reflexivity.
  exfalso. apply (Hnd d0). reflexivity.
Qed.

Lemma from_url_malformed_entries_witness :
  from_url ytdl_null_entry "private" true = Raised TypeError.
Proof.
  apply (from_url_malformed_entries ytdl_null_entry "private"
           {[ "entries" := PyList [PyNone] ]} (PyList [PyNone]) eq_refl eq_refl).
  right. exists PyNone, []. split; [reflexivity|]. intros d0. discriminate.
Defined.

(** X3: with [stream=False] the backend is asked to download, and the
    audio is read from the file [prepare_filename] names: the result needs
    no ['url'], and the source built keeps the result's own title, url and
    uploader, [None] where they are absent. *)
Theorem from_url_download ytdl query (d : gmap string pyval) f :
  extract_info ytdl query true = Returned (Some d) ->
  d !! "entries" = None ->
  prepare_filename ytdl (PyDict d) = PyStr f ->
  from_url ytdl query false
  = Returned {| original := {| ff_source := f; ff_options := FFMPEG_OPTIONS |};
                volume := 1 # 2; data := PyDict d;
                title := default PyNone (d !! "title");
                url := default PyNone (d !! "url");
                uploader := default PyNone (d !! "uploader") |}.
Proof.
  intros Hx He Hf. unfold from_url. cbn [negb]. rewrite Hx.
  cbn [obind py_contains py_of_info]. rewrite He.
  rewrite bool_decide_eq_false_2 by (intros [? ?]; discriminate).
  cbn [obind]. rewrite Hf. reflexivity.
Qed.

Lemma from_url_download_witness :
  exists p, from_url ytdl_file "saved" false = Returned p /\
            ff_source (original p) = "saved.webm" /\ url p = PyNone.
Proof.
  eexists. split.
  - apply (from_url_download ytdl_file "saved" {[ "title" := PyStr "saved" ]}
             "saved.webm" eq_refl eq_refl eq_refl).
  - split; reflexivity.
Defined.

(** X4: whatever the backend and the mode, a source [from_url] returns is
    consistent with the data it keeps: its data is a dictionary, and its
    title, url and uploader are what [data.get] gives on it. *)
Theorem from_url_metadata_of_data ytdl query stream p :
  from_url ytdl query stream = Returned p ->
  (exists d0 : gmap string pyval, data p = PyDict d0) /\
  py_get (data p) "title" = Returned (title p) /\
  py_get (data p) "url" = Returned (url p) /\
  py_get (data p) "uploader" = Returned (uploader p).
Proof.
  intros Hp. destruct (from_url_returned _ _ _ _ Hp) as (filename & dt & _ & Hinit).
  destruct (YTDLSource_init_returned _ _ _ Hinit) as (d0 & _ & Heq).
  rewrite Heq. cbn. split; [exists d0; reflexivity|]. repeat split; reflexivity.
Qed.

Lemma from_url_metadata_of_data_witness :
  py_get (data sample_source) "title" = Returned (title sample_source).
Proof.
  apply (from_url_metadata_of_data ytdl_search "lofi" true sample_source).
  vm_compute. reflexivity.
Defined.

(** ** The commands, beyond the claims *)

(** X5: when [play] has to connect first and [channel.connect()] raises,
    the exception is caught: [play] sends the message that it needs to be
    in a voice channel and returns; nothing is connected, the resolver is
    not asked and no stream is started. *)
Theorem play_connect_failed ytdl connect_error query who c e :
  voice who = Some c ->
  connect_error c = Some e ->
  play ytdl connect_error query {| author := who; voice_client := None |}
  = Run {| author := who; voice_client := None |}
        [ESend msg_need_voice] (Returned tt).
Proof.
  destruct who as [nm v]. cbn [voice]. intros -> Hc.
  unfold play, play_ensure_connected, join, connect. run_cmd.
  rewrite Hc. reflexivity.
Qed.

Lemma play_connect_failed_witness :
  play ytdl_search (fun _ => Some (LibraryError "TimeoutError" "timed out")) "lofi"
    {| author := alice; voice_client := None |}
  = Run {| author := alice; voice_client := None |}
        [ESend msg_need_voice] (Returned tt).
Proof.
  apply (play_connect_failed ytdl_search
           (fun _ => Some (LibraryError "TimeoutError" "timed out")) "lofi"
           alice lobby (LibraryError "TimeoutError" "timed out") eq_refl eq_refl).
Defined.



(** X8: a [play] that connected by itself and then failed to resolve does
    not undo the connection: the bot stays in the author's channel with
    nothing playing, having sent the connected message and the failure
    message. *)
Theorem play_failure_keeps_connection ytdl connect_error query who c e :
  voice who = Some c ->
  connect_error c = None ->
  from_url ytdl query true = Raised e ->
  play ytdl connect_error query {| author := who; voice_client := None |}
  = Run {| author := who; voice_client := Some {| channel := c; player := None |} |}
        [EConnect c; ESend (msg_connected c); ETyping;
         EPrint [Lit "Error during play command: "; FmtExn e];
         ESend msg_play_failed]
        (Returned tt).
Proof.
  destruct who as [nm v]. cbn [voice]. intros -> Hc He.
  unfold play, play_ensure_connected, play_check_playback, play_start,
    play_except, join, connect. run_cmd. rewrite Hc. cbn. rewrite He. reflexivity.
Qed.

Lemma play_failure_keeps_connection_witness :
  play ytdl_down no_connect_error "gone" {| author := alice; voice_client := None |}
  = Run {| author := alice; voice_client := Some {| channel := lobby; player := None |} |}
        [EConnect lobby; ESend (msg_connected lobby); ETyping;
         EPrint [Lit "Error during play command: ";
                 FmtExn (LibraryError "DownloadError" "Video unavailable")];
         ESend msg_play_failed]
        (Returned tt).
Proof.
  apply (play_failure_keeps_connection ytdl_down no_connect_error "gone" alice lobby
           (LibraryError "DownloadError" "Video unavailable") eq_refl eq_refl eq_refl).
Defined.

(** X9: [join] itself does not catch a failure of [channel.connect()]:
    invoked as a command with no voice client, it raises the exception of
    the connection, sends nothing and leaves the guild without a voice
    client. *)
Theorem join_connect_error connect_error (ctx : Ctx) c e :
  voice (author ctx) = Some c ->
  voice_client ctx = None ->
  connect_error c = Some e ->
  join connect_error ctx = Run ctx [] (Raised e).
Proof.
  destruct ctx as [[nm v] cl]. cbn [author voice voice_client].
  intros -> -> Hc. unfold join, connect. run_cmd. rewrite Hc. reflexivity.
Qed.

Lemma join_connect_error_witness :
  join (fun _ => Some (LibraryError "TimeoutError" "timed out"))
       {| author := alice; voice_client := None |}
  = Run {| author := alice; voice_client := None |} []
        (Raised (LibraryError "TimeoutError" "timed out")).
Proof.
  apply (join_connect_error (fun _ => Some (LibraryError "TimeoutError" "timed out"))
           {| author := alice; voice_client := None |} lobby
           (LibraryError "TimeoutError" "timed out") eq_refl eq_refl eq_refl).
Defined.

(** X10: once [join] has succeeded for an author, that author joining
    again changes nothing: the second [join] moves the voice client to the
    channel it is in already, keeps its player and sends no message. *)
Theorem join_twice connect_error (ctx : Ctx) c :
  voice (author ctx) = Some c ->
  result (join connect_error ctx) = Returned tt ->
  let joined := final (join connect_error ctx) in
  connected_channel joined = Some c /\
  join connect_error joined = Run joined [EMoveTo c] (Returned tt).
Proof.
  destruct ctx as [[nm v] cl]. cbn [author voice]. intros ->.
  unfold join, connect, move_to. destruct cl as [[ch pl]|].
  - intros _. split; reflexivity.
  - run_cmd. destruct (connect_error c); [discriminate|].
    intros _. split; reflexivity.
Qed.

Lemma join_twice_witness :
  join no_connect_error (final (join no_connect_error {| author := alice; voice_client := None |}))
  = Run {| author := alice; voice_client := Some {| channel := lobby; player := None |} |}
        [EMoveTo lobby] (Returned tt).
Proof.
  apply (join_twice no_connect_error {| author := alice; voice_client := None |} lobby
           eq_refl eq_refl).
Defined.

(** X11: after [leave], whatever the state before, the guild has no voice
    client, and [leave], [pause] and [resume] issued next only report,
    each with its own message, and change nothing. *)
Theorem after_leave (ctx : Ctx) :
  let left := final (leave ctx) in
  voice_client left = None /\ author left = author ctx /\
  leave left = Run left [ESend msg_not_connected] (Returned tt) /\
  pause left = Run left [ESend msg_not_playing] (Returned tt) /\
  resume left = Run left [ESend msg_not_paused] (Returned tt).
Proof.
  destruct ctx as [who [[ch [[src [|]]|]]|]]; repeat split; reflexivity.
Qed.

(** X12: [pause], [resume] and [leave] never raise and send exactly one
    message each; [pause] and [resume] moreover never change the channel
    the bot is connected to nor the source of its player, in any state. *)
Theorem control_commands_are_safe (ctx : Ctx) :
  (result (pause ctx) = Returned tt /\
   length (filter is_send (emitted (pause ctx))) = 1 /\
   connected_channel (final (pause ctx)) = connected_channel ctx /\
   current_source (final (pause ctx)) = current_source ctx) /\
  (result (resume ctx) = Returned tt /\
   length (filter is_send (emitted (resume ctx))) = 1 /\
   connected_channel (final (resume ctx)) = connected_channel ctx /\
   current_source (final (resume ctx)) = current_source ctx) /\
  (result (leave ctx) = Returned tt /\
   length (filter is_send (emitted (leave ctx))) = 1).
Proof.
  destruct ctx as [who [[ch [[src [|]]|]]|]]; repeat split; reflexivity.
Qed.

(** X13: an answer of the resolver that arrives while a stream is playing
    never replaces that stream: [voice_client.play] refuses, the command
    sends the failure message and the voice client is untouched. An answer
    that arrives while the stream is paused is played: it takes the place
    of the paused source. *)
Theorem late_answer (p src : YTDLSource) who c :
  play_after_resolve (Returned p)
    {| author := who; voice_client := Some (streaming src c true) |}
  = Run {| author := who; voice_client := Some (streaming src c true) |}
        [EPrint [Lit "Error during play command: ";
                 FmtExn (ClientException "Already playing audio.")];
         ESend msg_play_failed]
        (Returned tt) /\
  play_after_resolve (Returned p)
    {| author := who; voice_client := Some (streaming src c false) |}
  = Run {| author := who; voice_client := Some (streaming p c true) |}
        [EPlay p; ESend (msg_now_playing p)]
        (Returned tt).
Proof. split; reflexivity. Qed.

(** ** One guild, beyond the claims *)

Lemma step_streams ytdl connect_error (a : action) (g : Guild) :
  length (filter starts_stream (s_emitted (step ytdl connect_error a g)))
  <= (if is_resolved a then 1 else 0).
Proof.
  destruct a as [who [| | query | |] | i | err]; cbn [is_resolved].
  - destruct who as [nm [c|]], g as [[[ch pl]|] rs]; try (cbv; lia).
    unfold step, run_atomic, ctx_of, join, connect. run_cmd. cbn [g_voice_client].
    destruct (connect_error c); cbv; lia.
  - destruct g as [[[ch [[src [|]]|]]|] rs]; cbv; lia.
  - cbn [step].
    assert (Hq : filter starts_stream
                   (emitted (play_until_resolve connect_error (ctx_of g who))) = []).
    { destruct who as [nm v], g as [[[ch pl]|] rs];
        unfold ctx_of, play_until_resolve, play_ensure_connected,
          play_check_playback, join, connect, move_to; cbn [g_voice_client].
      - run_cmd. unfold is_playing, is_paused. cbn [player].
        destruct pl as [[src [|]]|]; reflexivity.
      - destruct v as [c|]; [|reflexivity].
        run_cmd. destruct (connect_error c); reflexivity. }
    destruct (result (play_until_resolve connect_error (ctx_of g who))) as [[|]|e];
      cbn [s_emitted]; rewrite Hq; cbn; lia.
  - destruct g as [[[ch [[src [|]]|]]|] rs]; cbv; lia.
  - destruct g as [[[ch [[src [|]]|]]|] rs]; cbv; lia.
  - cbn [step]. destruct (resolving g !! i) as [[w q]|]; [|cbv; lia].
    cbn [s_emitted]. destruct (from_url ytdl q true) as [p|e];
      destruct g as [[[ch [[src [|]]|]]|] rs]; cbv; lia.
  - destruct g as [[[ch [[src on]|]]|] rs]; try (cbv; lia).
    destruct err; cbv; lia.
Qed.

(** X15: in every schedule of one guild, streams are started only by
    answers of the resolver, at most one per answer: the number of streams
    started is at most the number of answers in the schedule, so none is
    started by the commands as they are issued, nor by a stream ending. *)
Theorem streams_bounded_by_answers ytdl connect_error (acts : list action) (g : Guild) :
  length (filter starts_stream (snd (steps ytdl connect_error acts g)))
  <= length (filter is_resolved acts).
Proof.
  revert g. induction acts as [|a acts IH]; intros g; [reflexivity|].
  cbn [steps]. specialize (IH (s_guild (step ytdl connect_error a g))).
  destruct (steps ytdl connect_error acts (s_guild (step ytdl connect_error a g)))
    as [g' evs].
  cbn [snd] in *. rewrite filter_app, length_app.
  pose proof (step_streams ytdl connect_error a g) as Hs.
  cbn [filter]. unfold filter at 3. cbn [list_filter].
  destruct (decide (is_resolved a)) as [Ha|Ha].
  - apply Is_true_true in Ha. rewrite Ha in Hs. cbn [length]. lia.
  - apply Is_true_false in Ha. rewrite Ha in Hs. lia.
Qed.

(** ** Running the bot *)

(** X16: the main block never ends in an exception: without a token it
    prints the missing-token error and does not start the bot; with a
    token it starts the bot with that very token, prints nothing when
    [bot.run] returns and exactly one error line when it raises, the
    invalid-token line for a [LoginFailure] and the line that shows the
    exception for any other. *)
Theorem main_never_raises (TOKEN : option string) (bot_run : string -> outcome unit) :
  ended (main TOKEN bot_run) = Returned tt /\
  started (main TOKEN bot_run) = TOKEN /\
  (TOKEN = None -> length (printed (main TOKEN bot_run)) = 1) /\
  (forall token, TOKEN = Some token ->
     (bot_run token = Returned tt -> printed (main TOKEN bot_run) = []) /\
     (forall e, bot_run token = Raised e ->
        length (printed (main TOKEN bot_run)) = 1 /\
        (is_LoginFailure e = false ->
         printed (main TOKEN bot_run)
         = [[Lit nl; Lit "!!! An unexpected error occurred: "; FmtExn e;
             Lit " !!!"; Lit nl]]))).
Proof.
  destruct TOKEN as [token|]; cbn [main].
  - destruct (bot_run token) as [[]|e] eqn:Hrun;
      [|destruct (is_LoginFailure e) eqn:Hl]; cbn [ended started printed];
      (split; [reflexivity|]); (split; [reflexivity|]); (split; [discriminate|]);
      intros token' [= <-]; rewrite Hrun; (split; [intros Hr; first [reflexivity | discriminate]|]);
      intros e' He'; try discriminate; injection He' as <-;
      (split; [reflexivity|]); intros Hn; first [reflexivity | congruence].
  - do 3 (split; [reflexivity|]). intros token; discriminate.
Qed.
